(** * check_mint.py: derivation of the mint address and account lookup

    A shallow embedding of [check_mint.py].  The script derives the
    program-derived address of the energy-token mint, prints it, asks the
    [solana] command-line tool for the account stored at that address and
    prints what the tool answered.

    The script is glue between three collaborators that are not part of the
    repository: the [solders] address library, the operating system
    ([subprocess.run]) and the Python runtime ([json.loads], [repr]).  Each
    of them is an interface (a record of operations) here, and the script
    is a function of the three.  The [import] statements of lines 1 to 4 are
    taken to succeed, and standard output is taken to be open, with the
    encoder the interpreter gives it by default (UTF-8, strict). *)

From Stdlib Require Import String Ascii List ZArith Lia Bool.
From Stdlib.Strings Require Import Byte.
From Stdlib Require Import DecimalString SpecFloat.
Import ListNotations.

Local Open Scope list_scope.
Local Open Scope string_scope.

(** ** Exceptions, observable events and the script monad *)

(** A raised Python exception: the name of its class and the text [str(e)]
    gives. *)
Record PyExc : Type := mkExc { exc_class : string; exc_str : string }.

(** The classes of Python, of asyncio and of pyo3 that derive from
    [BaseException] without deriving from [Exception]. *)
Definition outside_Exception : list string :=
  ["BaseException"; "BaseExceptionGroup"; "GeneratorExit"; "KeyboardInterrupt";
   "SystemExit"; "CancelledError"; "PanicException"].

(** [isinstance(e, Exception)], told from the name of the class: every class
    but the ones above derives from [Exception]. *)
Definition is_Exception (e : PyExc) : bool :=
  negb (existsb (String.eqb (exc_class e)) outside_Exception).

(** What a Python expression evaluates to: a value, or a raised exception. *)
Inductive result (A : Type) : Type :=
| Ret (a : A)
| Raise (e : PyExc).
Arguments Ret {A} a.
Arguments Raise {A} e.

(** What the script does to the outside, in order. *)
Inductive event : Type :=
| EvPrint (text : string)          (* print(text), written to standard output *)
| EvRun (argv : list string)       (* subprocess.run(argv, ...) *)
| EvLoads (text : string).         (* json.loads(text) *)

(** A computation: the events it performed and how it ended. *)
Definition Py (A : Type) : Type := (list event * result A)%type.

Module PyMonad.

Definition ret {A} (a : A) : Py A := ([], Ret a).

Definition raise {A} (e : PyExc) : Py A := ([], Raise e).

Definition bind {A B} (m : Py A) (k : A -> Py B) : Py B :=
  match m with
  | (t, Ret a) => let (t', r) := k a in ((t ++ t')%list, r)
  | (t, Raise e) => (t, Raise e)
  end.

(** [try: body / except Exception as e: handler e].  The clause takes the
    exceptions that are instances of [Exception]; another exception of the
    body goes on past the statement, and so does an exception that the
    handler itself raises. *)
Definition try_except {A} (body : Py A) (handler : PyExc -> Py A) : Py A :=
  match body with
  | (t, Ret a) => (t, Ret a)
  | (t, Raise e) =>
      if is_Exception e then let (t', r) := handler e in ((t ++ t')%list, r)
      else (t, Raise e)
  end.

(** An expression with no effect on the outside. *)
Definition lift {A} (r : result A) : Py A := ([], r).

(** A call to a collaborator, recorded as event [ev]. *)
Definition call {A} (ev : event) (r : result A) : Py A := ([ev], r).

End PyMonad.
Import PyMonad.

Declare Scope py_scope.
Delimit Scope py_scope with py.
Notation "x <- m ;; k" := (bind m (fun x => k))
  (at level 61, m at next level, right associativity) : py_scope.
Notation "' pat <- m ;; k" := (bind m (fun x => match x with pat => k end))
  (at level 61, pat pattern, m at next level, right associativity) : py_scope.
Notation "m ;; k" := (bind m (fun _ => k))
  (at level 61, right associativity) : py_scope.

(** How a run of the script ends. *)
Inductive termination : Type :=
| Normal                       (* the interpreter reaches the end of the file *)
| Uncaught (e : PyExc).        (* traceback, the interpreter exits with an error *)

Definition trace {A} (m : Py A) : list event := fst m.

Definition outcome {A} (m : Py A) : termination :=
  match snd m with
  | Ret _ => Normal
  | Raise e => Uncaught e
  end.

Fixpoint printed_of (t : list event) : list string :=
  match t with
  | [] => []
  | EvPrint s :: t' => s :: printed_of t'
  | _ :: t' => printed_of t'
  end.

Fixpoint invocations_of (t : list event) : list (list string) :=
  match t with
  | [] => []
  | EvRun argv :: t' => argv :: invocations_of t'
  | _ :: t' => invocations_of t'
  end.

Fixpoint parsed_of (t : list event) : list string :=
  match t with
  | [] => []
  | EvLoads s :: t' => s :: parsed_of t'
  | _ :: t' => parsed_of t'
  end.

(** The lines written to standard output, the command lines handed to
    [subprocess.run] and the texts handed to [json.loads]. *)
Definition printed {A} (m : Py A) : list string := printed_of (trace m).
Definition invocations {A} (m : Py A) : list (list string) := invocations_of (trace m).
Definition parsed {A} (m : Py A) : list string := parsed_of (trace m).

(** ** Python values, as [json.loads] builds them *)

#[warnings="-register-all"]
Inductive pyvalue : Type :=
| PyNone
| PyBool (b : bool)
| PyInt (n : Z)
| PyFloat (x : spec_float)
| PyStr (s : string)
| PyList (items : list pyvalue)
| PyDict (entries : list (string * pyvalue)).

(** [type(v).__name__] *)
Definition type_name (v : pyvalue) : string :=
  match v with
  | PyNone => "NoneType"
  | PyBool _ => "bool"
  | PyInt _ => "int"
  | PyFloat _ => "float"
  | PyStr _ => "str"
  | PyList _ => "list"
  | PyDict _ => "dict"
  end.

(** [", ".join(parts)] *)
Fixpoint join_comma (parts : list string) : string :=
  match parts with
  | [] => ""
  | [p] => p
  | p :: rest => p ++ ", " ++ join_comma rest
  end.

(** [repr(n)] of an [int]: decimal digits, [-] in front of a negative one. *)
Definition repr_int (n : Z) : string := NilZero.string_of_int (Z.to_int n).

(** [dict] lookup by key, on the entries in insertion order; the keys of a
    [dict] are distinct. *)
Fixpoint dict_lookup (key : string) (entries : list (string * pyvalue)) : option pyvalue :=
  match entries with
  | [] => None
  | (k, v) :: rest => if String.eqb k key then Some v else dict_lookup key rest
  end.

(** ** The collaborators *)

Definition bytes : Type := list byte.

(** Is every character of the text an ASCII character? *)
Fixpoint is_ascii (s : string) : bool :=
  match s with
  | EmptyString => true
  | String (Ascii _ _ _ _ _ _ _ high) rest => negb high && is_ascii rest
  end.

(** The address library.  A [Pubkey] is its 32 bytes; its string form is
    base58 text, which is ASCII. *)
Record Solders : Type := {
  (* Pubkey.from_string(s): base58 text to key, ValueError on bad text *)
  from_string : string -> result bytes;
  (* str(pubkey) *)
  to_string : bytes -> string;
  (* the candidate address for (seeds, bump seed, program id) *)
  candidate_address : list bytes -> byte -> bytes -> bytes;
  (* is this address a point of the curve? *)
  is_on_curve : bytes -> bool;
  from_string_32 : forall s k, from_string s = Ret k -> length k = 32%nat;
  candidate_address_32 : forall seeds b pid, length (candidate_address seeds b pid) = 32%nat;
  to_string_ascii : forall k, is_ascii (to_string k) = true
}.

(** [subprocess.CompletedProcess], with [capture_output=True, text=True]. *)
Record CompletedProcess : Type := {
  returncode : Z;
  stdout : string;
  stderr : string
}.

(** The operating system: what [subprocess.run(argv, capture_output=True,
    text=True)] gives.  It raises (FileNotFoundError, PermissionError, ...)
    when the program cannot be started, and KeyboardInterrupt when the user
    interrupts the wait for the tool. *)
Record Host : Type := {
  subprocess_run : list string -> result CompletedProcess
}.

(** The Python runtime.  [stdout_encodes text] tells whether the encoder of
    [sys.stdout] takes [text]: it takes ASCII text, the concatenation of
    texts it takes, and what [repr] gives (which writes a lone surrogate as
    an escape); it refuses a text with a lone surrogate in it, as a [str]
    built by [json.loads] can be. *)
Record Runtime : Type := {
  (* json.loads(text): the value, or json.JSONDecodeError *)
  json_loads : string -> result pyvalue;
  (* repr(s) of a str: quotes and escapes *)
  repr_str : string -> string;
  (* repr(x) of a float *)
  repr_float : spec_float -> string;
  (* can sys.stdout encode the text? *)
  stdout_encodes : string -> bool;
  (* str(e) of the UnicodeEncodeError for a text it cannot encode *)
  encode_error_str : string -> string;
  encodes_ascii : forall s, is_ascii s = true -> stdout_encodes s = true;
  encodes_append : forall a b,
      stdout_encodes a = true -> stdout_encodes b = true ->
      stdout_encodes (a ++ b) = true;
  encodes_repr_str : forall s, stdout_encodes (repr_str s) = true;
  encodes_repr_float : forall x, stdout_encodes (repr_float x) = true
}.

(** The three together.  The tool's standard error reaches the script
    decoded by the encoding that standard output encodes with, so it can be
    written back. *)
Record World : Type := {
  solders : Solders;
  host : Host;
  runtime : Runtime;
  stderr_encodable : forall argv cp,
      subprocess_run host argv = Ret cp -> stdout_encodes runtime (stderr cp) = true
}.

(** [print(text)]: the text goes to standard output when its encoder takes
    it; otherwise nothing is written and UnicodeEncodeError is raised. *)
Definition print (rt : Runtime) (text : string) : Py unit :=
  if stdout_encodes rt text then ([EvPrint text], Ret tt)
  else ([], Raise (mkExc "UnicodeEncodeError" (encode_error_str rt text))).

(** [repr(v)] *)
Fixpoint py_repr (rt : Runtime) (v : pyvalue) : string :=
  match v with
  | PyNone => "None"
  | PyBool true => "True"
  | PyBool false => "False"
  | PyInt n => repr_int n
  | PyFloat x => repr_float rt x
  | PyStr s => repr_str rt s
  | PyList items => "[" ++ join_comma (map (py_repr rt) items) ++ "]"
  | PyDict entries =>
      "{" ++ join_comma (map (fun kv => match kv with
                                        | (k, x) => repr_str rt k ++ ": " ++ py_repr rt x
                                        end) entries) ++ "}"
  end.

(** [str(v)], which is what a replacement field [{v}] of an f-string
    inserts: the text itself for a [str], [repr(v)] for the other values. *)
Definition py_str (rt : Runtime) (v : pyvalue) : string :=
  match v with
  | PyStr s => s
  | _ => py_repr rt v
  end.

(** [v.get(key)]: only a [dict] has the method; on a [dict] the lookup gives
    [None] for a missing key. *)
Definition py_get (v : pyvalue) (key : string) : result pyvalue :=
  match v with
  | PyDict entries =>
      match dict_lookup key entries with
      | Some x => Ret x
      | None => Ret PyNone
      end
  | _ => Raise (mkExc "AttributeError"
                  ("'" ++ type_name v ++ "' object has no attribute 'get'"))
  end.

(** ** Address derivation *)

Module Derivation.

(** The bump seed is one byte. *)
Definition bump_byte (bump : nat) : byte :=
  match Byte.of_nat bump with
  | Some b => b
  | None => x00
  end.

(** The error of a search that found no bump. *)
Definition no_viable_bump : PyExc :=
  mkExc "Error" "no valid bump seed found for the program address".

(** Modelled from the spec: [Pubkey.find_program_address] is a function of
    the [solders] library, which is not among the sources.  The spec (4.1)
    gives its contract: the discriminator is the first value, scanned from
    the highest downward, whose candidate address fails the curve test;
    the call signals an error when no value of the range does.
    [search lib seeds pid bump] scans [bump, bump - 1, ..., 0]. *)
Fixpoint search (lib : Solders) (seeds : list bytes) (pid : bytes) (bump : nat)
  : option (bytes * nat) :=
  let address := candidate_address lib seeds (bump_byte bump) pid in
  if is_on_curve lib address then
    match bump with
    | O => None
    | S lower => search lib seeds pid lower
    end
  else Some (address, bump).

(** Modelled from the spec: [Pubkey.find_program_address(seeds, program_id)]
    of the [solders] library (not among the sources), the scan above
    started at 255. *)
Definition find_program_address (lib : Solders) (seeds : list bytes) (pid : bytes)
  : result (bytes * nat) :=
  match search lib seeds pid 255 with
  | Some found => Ret found
  | None => Raise no_viable_bump
  end.

(** Modelled from the spec: the contract of address derivation in the words
    of spec 4.1, as a condition on the outcome of one call.  A returned
    address is the candidate of the returned bump, that candidate fails the
    curve test, and the candidates of the bumps scanned before it (the
    higher ones, up to 255) do not; an error is signalled only when no bump
    of the range has a candidate that fails the test. *)
Definition meets_contract (lib : Solders) (seeds : list bytes) (pid : bytes)
    (call_outcome : result (bytes * nat)) : Prop :=
  match call_outcome with
  | Ret (address, bump) =>
      bump <= 255 /\
      address = candidate_address lib seeds (bump_byte bump) pid /\
      is_on_curve lib address = false /\
      (forall higher, bump < higher <= 255 ->
         is_on_curve lib (candidate_address lib seeds (bump_byte higher) pid) = true)
  | Raise e =>
      e = no_viable_bump /\
      (forall bump, bump <= 255 ->
         is_on_curve lib (candidate_address lib seeds (bump_byte bump) pid) = true)
  end.

End Derivation.
Import Derivation.

(** ** The script *)

(** Line 6: [Pubkey.from_string("HaT3...")]. *)
Definition ENERGY_TOKEN_PROGRAM_ID (lib : Solders) : result bytes :=
  from_string lib "HaT3koMseafcCB9aUQUCrSLMDfN1km7Xik9UhZSG9UV6".

(** Line 7: [[b"mint"]]. *)
Definition SEEDS : list bytes := [list_byte_of_string "mint"].

(** Lines 6 to 9: the program id and the derived address with its bump. *)
Definition derive (lib : Solders) : result (bytes * nat) :=
  match ENERGY_TOKEN_PROGRAM_ID lib with
  | Ret pid => find_program_address lib SEEDS pid
  | Raise e => Raise e
  end.

(** Line 15: the command line of the lookup. *)
Definition solana_argv (lib : Solders) (mint_pda : bytes) : list string :=
  ["solana"; "account"; to_string lib mint_pda; "--output"; "json"].

Local Open Scope py_scope.

(** Lines 14 to 24: the body of the [try] statement. *)
Definition lookup_body (w : World) (mint_pda : bytes) : Py unit :=
  let argv := solana_argv (solders w) mint_pda in
  result <- call (EvRun argv) (subprocess_run (host w) argv) ;;
  if (returncode result =? 0)%Z then
    (data <- call (EvLoads (stdout result))
                  (json_loads (runtime w) (stdout result)) ;;
     owner <- lift (py_get data "owner") ;;
     print (runtime w) ("Owner: " ++ py_str (runtime w) owner) ;;
     print (runtime w) ("Data: " ++ py_str (runtime w) data))
  else
    print (runtime w) ("Error getting account: " ++ stderr result).

(** Lines 25 and 26: [except Exception as e]. *)
Definition report (rt : Runtime) (e : PyExc) : Py unit :=
  print rt ("Exception: " ++ exc_str e).

(** Lines 13 to 26: the [try] statement. *)
Definition account_lookup (w : World) (mint_pda : bytes) : Py unit :=
  try_except (lookup_body w mint_pda) (report (runtime w)).

(** The whole file, top to bottom. *)
Definition main (w : World) : Py unit :=
  '(mint_pda, bump) <- lift (derive (solders w)) ;;
  print (runtime w) ("Mint Address: " ++ to_string (solders w) mint_pda) ;;
  account_lookup w mint_pda.

Local Close Scope py_scope.

(** The text [needle] occurs in [text]. *)
Definition occurs_in (needle text : string) : Prop :=
  exists before after, text = before ++ needle ++ after.

(** ** Mocked collaborators, for running the script on concrete inputs *)

Module Mock.

Definition dquote : string := String (ascii_of_nat 34) "".
Definition quoted (s : string) : string := dquote ++ s ++ dquote.

Definition hex_digit (n : N) : ascii :=
  ascii_of_N (if (n <? 10)%N then 48 + n else 87 + n).

Definition hex_of_byte (b : byte) : string :=
  let n := Byte.to_N b in
  String (hex_digit (n / 16)) (String (hex_digit (n mod 16)) "").

Definition hex_of_bytes (k : bytes) : string :=
  String.concat "" (map hex_of_byte k).

Definition hex_of_bytes_ascii : forall k, is_ascii (hex_of_bytes k) = true.
Proof.
  assert (Hcons : forall b rest, is_ascii rest = true ->
                                 is_ascii (hex_of_byte b ++ rest) = true)
    by (intros b rest Hrest; destruct b; cbn; exact Hrest).
  unfold hex_of_bytes. induction k as [| b k IH]; [reflexivity |].
  cbn [map String.concat]. destruct (map hex_of_byte k) as [| h t] eqn:Hmap.
  - destruct b; reflexivity.
  - apply Hcons. exact IH.
Qed.

(** The 32 bytes that the base58 text of line 6 stands for. *)
Definition program_id : bytes :=
  [xf6; x4c; x9c; x09; xeb; xdc; xc2; x7a; x68; x16; x64; x07; x86; x6d; x69; x77;
   xcf; xa1; xef; x88; x8c; x5a; x11; x9a; x4f; x12; x62; x82; x57; x95; xe5; xf9].

(** An address library whose candidates with bump 255 and 254 are points
    of the curve and whose candidate with bump 253 is not. *)
Definition lib : Solders := {|
  from_string := fun _ => Ret program_id;
  to_string := hex_of_bytes;
  candidate_address := fun _ b _ => b :: repeat x00 31;
  is_on_curve := fun a =>
    match a with
    | b :: _ => (253 <? Byte.to_nat b)%nat
    | [] => true
    end;
  from_string_32 := ltac:(intros s k H; inversion H; reflexivity);
  candidate_address_32 := fun _ _ _ => eq_refl;
  to_string_ascii := hex_of_bytes_ascii
|}.

(** An address library for which every candidate is a point of the curve. *)
Definition lib_all_on_curve : Solders := {|
  from_string := fun _ => Ret program_id;
  to_string := hex_of_bytes;
  candidate_address := fun _ b _ => b :: repeat x00 31;
  is_on_curve := fun _ => true;
  from_string_32 := ltac:(intros s k H; inversion H; reflexivity);
  candidate_address_32 := fun _ _ _ => eq_refl;
  to_string_ascii := hex_of_bytes_ascii
|}.

Definition owner_id : string := "TokenkegQfeZyiNwAJbNbGKPFXCWuBvf9Ss623VQ5DA".

(** [{"owner": "Token..."}], [{"lamports": 1461600}] and [[]]. *)
Definition json_with_owner : string :=
  "{" ++ quoted "owner" ++ ": " ++ quoted owner_id ++ "}".
Definition json_without_owner : string :=
  "{" ++ quoted "lamports" ++ ": 1461600}".
Definition json_array : string := "[]".

(** A runtime that knows the three texts above and rejects the others; its
    standard output takes every text. *)
Definition rt : Runtime := {|
  json_loads := fun text =>
    if String.eqb text json_with_owner then Ret (PyDict [("owner", PyStr owner_id)])
    else if String.eqb text json_without_owner then Ret (PyDict [("lamports", PyInt 1461600)])
    else if String.eqb text json_array then Ret (PyList [])
    else Raise (mkExc "JSONDecodeError" "Expecting value: line 1 column 1 (char 0)");
  repr_str := fun s => "'" ++ s ++ "'";
  repr_float := fun _ => "nan";
  stdout_encodes := fun _ => true;
  encode_error_str := fun _ => "";
  encodes_ascii := fun _ _ => eq_refl;
  encodes_append := fun _ _ _ _ => eq_refl;
  encodes_repr_str := fun _ => eq_refl;
  encodes_repr_float := fun _ => eq_refl
|}.

(** The tool exits with code 0 and writes [text]. *)
Definition tool_prints (text : string) : Host := {|
  subprocess_run := fun _ => Ret {| returncode := 0; stdout := text; stderr := "" |}
|}.

(** The tool exits with code 1 and complains on standard error. *)
Definition tool_fails (complaint : string) : Host := {|
  subprocess_run := fun _ => Ret {| returncode := 1; stdout := ""; stderr := complaint |}
|}.

(** There is no [solana] program on the machine. *)
Definition tool_missing : Host := {|
  subprocess_run := fun _ =>
    Raise (mkExc "FileNotFoundError" "[Errno 2] No such file or directory: 'solana'")
|}.

(** The user presses Ctrl-C while the script waits for the tool. *)
Definition tool_interrupted : Host := {|
  subprocess_run := fun _ => Raise (mkExc "KeyboardInterrupt" "")
|}.

Definition world (h : Host) : World :=
  {| solders := lib; host := h; runtime := rt;
     stderr_encodable := fun _ _ _ => eq_refl |}.

Definition world_all_on_curve (h : Host) : World :=
  {| solders := lib_all_on_curve; host := h; runtime := rt;
     stderr_encodable := fun _ _ _ => eq_refl |}.

(** The address the mocked library derives: bump 253. *)
Definition mint_pda : bytes := xfd :: repeat x00 31.

(** [{"owner": null}], and a runtime that parses every text to that. *)
Definition json_null_owner : string := "{" ++ quoted "owner" ++ ": null}".

Definition rt_null_owner : Runtime := {|
  json_loads := fun _ => Ret (PyDict [("owner", PyNone)]);
  repr_str := fun s => "'" ++ s ++ "'";
  repr_float := fun _ => "nan";
  stdout_encodes := fun _ => true;
  encode_error_str := fun _ => "";
  encodes_ascii := fun _ _ => eq_refl;
  encodes_append := fun _ _ _ _ => eq_refl;
  encodes_repr_str := fun _ => eq_refl;
  encodes_repr_float := fun _ => eq_refl
|}.

Definition world_null_owner : World :=
  {| solders := lib; host := tool_prints json_null_owner; runtime := rt_null_owner;
     stderr_encodable := fun _ _ _ => eq_refl |}.

(** [{"account": {"owner": "Token..."}}], the owner one level down, and a
    runtime that parses every text to that. *)
Definition json_nested_owner : string :=
  "{" ++ quoted "account" ++ ": {" ++ quoted "owner" ++ ": " ++ quoted owner_id ++ "}}".

Definition rt_nested_owner : Runtime := {|
  json_loads := fun _ => Ret (PyDict [("account", PyDict [("owner", PyStr owner_id)])]);
  repr_str := fun s => "'" ++ s ++ "'";
  repr_float := fun _ => "nan";
  stdout_encodes := fun _ => true;
  encode_error_str := fun _ => "";
  encodes_ascii := fun _ _ => eq_refl;
  encodes_append := fun _ _ _ _ => eq_refl;
  encodes_repr_str := fun _ => eq_refl;
  encodes_repr_float := fun _ => eq_refl
|}.

Definition world_nested_owner : World :=
  {| solders := lib; host := tool_prints json_nested_owner; runtime := rt_nested_owner;
     stderr_encodable := fun _ _ _ => eq_refl |}.

(** A standard output whose encoder refuses the byte ED, with which the
    encoded form of a surrogate starts. *)
Definition lead : ascii := ascii_of_nat 237.

Fixpoint no_lead (s : string) : bool :=
  match s with
  | EmptyString => true
  | String c rest => negb (Ascii.eqb c lead) && no_lead rest
  end.

(** The lone surrogate U+D800, and [{"owner": "\ud800"}]. *)
Definition lone_surrogate : string :=
  String lead (String (ascii_of_nat 160) (String (ascii_of_nat 128) "")).

Definition json_surrogate_owner : string :=
  "{" ++ quoted "owner" ++ ": " ++ quoted "\ud800" ++ "}".

(** A [repr] that writes the byte ED as an escape. *)
Fixpoint escape_lead (s : string) : string :=
  match s with
  | EmptyString => EmptyString
  | String c rest =>
      if Ascii.eqb c lead then "\xed" ++ escape_lead rest
      else String c (escape_lead rest)
  end.

Definition no_lead_ascii : forall s, is_ascii s = true -> no_lead s = true.
Proof.
  induction s as [| c s IH]; [reflexivity |].
  destruct c as [b0 b1 b2 b3 b4 b5 b6 b7]. cbn [is_ascii no_lead].
  destruct b7; [discriminate |]. cbn [negb andb]. intro Hrest.
  rewrite (IH Hrest), andb_true_r.
  destruct b0, b1, b2, b3, b4, b5, b6; reflexivity.
Qed.

Definition no_lead_append : forall a b,
    no_lead a = true -> no_lead b = true -> no_lead (a ++ b) = true.
Proof.
  induction a as [| c a IH]; intros b Ha Hb; [exact Hb |].
  cbn in *. apply andb_true_iff in Ha. destruct Ha as [Hc Ha].
  rewrite Hc. cbn. apply IH; assumption.
Qed.

Definition no_lead_escape : forall s, no_lead ("'" ++ escape_lead s ++ "'") = true.
Proof.
  intro s. change (no_lead (escape_lead s ++ "'") = true).
  induction s as [| c s IH]; [reflexivity |].
  cbn [escape_lead]. destruct (Ascii.eqb c lead) eqn:Hc.
  - exact IH.
  - cbn [append no_lead]. rewrite Hc. exact IH.
Qed.

Definition rt_strict : Runtime := {|
  json_loads := fun _ => Ret (PyDict [("owner", PyStr lone_surrogate)]);
  repr_str := fun s => "'" ++ escape_lead s ++ "'";
  repr_float := fun _ => "nan";
  stdout_encodes := no_lead;
  encode_error_str := fun _ =>
    "'utf-8' codec can't encode character '\ud800' in position 7: surrogates not allowed";
  encodes_ascii := no_lead_ascii;
  encodes_append := no_lead_append;
  encodes_repr_str := no_lead_escape;
  encodes_repr_float := fun _ => eq_refl
|}.

Definition world_strict : World :=
  {| solders := lib; host := tool_prints json_surrogate_owner; runtime := rt_strict;
     stderr_encodable := ltac:(intros argv cp H; inversion H; reflexivity) |}.

End Mock.

(** * Properties *)

(** ** The scan for the bump *)

Section Scan.

Variable lib : Solders.
Variables (seeds : list bytes) (pid : bytes).

Let candidate (bump : nat) : bytes :=
  candidate_address lib seeds (bump_byte bump) pid.

Lemma search_unfold (bump : nat) :
  search lib seeds pid bump =
  if is_on_curve lib (candidate bump) then
    match bump with
    | O => None
    | S lower => search lib seeds pid lower
    end
  else Some (candidate bump, bump).
Proof. destruct bump; reflexivity. Qed.

(** What a successful scan from [start] found. *)
Lemma search_found (start : nat) (address : bytes) (bump : nat) :
  search lib seeds pid start = Some (address, bump) ->
  bump <= start /\
  address = candidate bump /\
  is_on_curve lib address = false /\
  (forall higher, bump < higher <= start ->
                  is_on_curve lib (candidate higher) = true).
Proof.
  induction start as [| start IH]; rewrite search_unfold;
    destruct (is_on_curve lib (candidate _)) eqn:Hcurve; intro Hfound.
  - discriminate.
  - injection Hfound as <- <-. repeat split; auto. intros; lia.
  - destruct (IH Hfound) as (Hle & Haddr & Hoff & Habove).
    repeat split; auto. intros higher Hrange.
    destruct (Nat.eq_dec higher (S start)) as [-> | Hne]; auto.
    apply Habove; lia.
  - injection Hfound as <- <-. repeat split; auto. intros; lia.
Qed.

(** A scan fails exactly when every candidate from [start] down is a point
    of the curve. *)
Lemma search_exhausted (start : nat) :
  search lib seeds pid start = None <->
  (forall bump, bump <= start -> is_on_curve lib (candidate bump) = true).
Proof.
  induction start as [| start IH]; rewrite search_unfold;
    destruct (is_on_curve lib (candidate _)) eqn:Hcurve.
  - split; auto. intros _ bump Hle. replace bump with 0 by lia. exact Hcurve.
  - split; [discriminate |]. intros Hall.
    rewrite Hall in Hcurve by lia. discriminate.
  - rewrite IH. split; intros Hall bump Hle.
    + destruct (Nat.eq_dec bump (S start)) as [-> | Hne]; auto.
      apply Hall; lia.
    + apply Hall; lia.
  - split; [discriminate |]. intros Hall.
    rewrite Hall in Hcurve by lia. discriminate.
Qed.

Lemma find_program_address_found (address : bytes) (bump : nat) :
  find_program_address lib seeds pid = Ret (address, bump) ->
  search lib seeds pid 255 = Some (address, bump).
Proof.
  unfold find_program_address.
  destruct (search lib seeds pid 255) as [found |]; [| discriminate].
  intro H. injection H as ->. reflexivity.
Qed.

End Scan.

(** A bump below 256 is the byte it is written as. *)
Lemma bump_byte_to_nat (bump : nat) :
  bump <= 255 -> Byte.to_nat (bump_byte bump) = bump.
Proof.
  intro Hle. unfold bump_byte.
  destruct (Byte.of_nat bump) as [b |] eqn:Hb.
  - apply Byte.to_of_nat. exact Hb.
  - apply Byte.of_nat_None_iff in Hb. lia.
Qed.

(** The scan meets the contract of spec 4.1. *)
Lemma find_program_address_meets_contract
    (lib : Solders) (seeds : list bytes) (pid : bytes) :
  meets_contract lib seeds pid (find_program_address lib seeds pid).
Proof.
  unfold find_program_address, meets_contract.
  destruct (search lib seeds pid 255) as [[address bump] |] eqn:Hsearch.
  - apply search_found in Hsearch.
    destruct Hsearch as (Hle & Haddr & Hoff & Habove). auto.
  - split; [reflexivity |]. apply search_exhausted. exact Hsearch.
Qed.

(** The contract leaves one outcome: two outcomes that meet it are equal. *)
Lemma meets_contract_unique
    (lib : Solders) (seeds : list bytes) (pid : bytes)
    (first second : result (bytes * nat)) :
  meets_contract lib seeds pid first ->
  meets_contract lib seeds pid second ->
  first = second.
Proof.
  destruct first as [[a1 b1] | e1], second as [[a2 b2] | e2]; cbn.
  - intros (Hle1 & Ha1 & Hoff1 & Habove1) (Hle2 & Ha2 & Hoff2 & Habove2).
    assert (Hb : b1 = b2).
    { destruct (Nat.lt_trichotomy b1 b2) as [Hlt | [Heq | Hgt]]; [| exact Heq |].
      - rewrite Ha2 in Hoff2. rewrite Habove1 in Hoff2 by lia. discriminate.
      - rewrite Ha1 in Hoff1. rewrite Habove2 in Hoff1 by lia. discriminate. }
    subst b2. rewrite Ha1, Ha2. reflexivity.
  - intros (Hle1 & Ha1 & Hoff1 & _) (_ & Hall).
    rewrite Ha1 in Hoff1. rewrite Hall in Hoff1 by exact Hle1. discriminate.
  - intros (_ & Hall) (Hle2 & Ha2 & Hoff2 & _).
    rewrite Ha2 in Hoff2. rewrite Hall in Hoff2 by exact Hle2. discriminate.
  - intros (-> & _) (-> & _). reflexivity.
Qed.

(** ** What standard output can encode *)

Lemma is_ascii_append (a b : string) :
  is_ascii (a ++ b) = is_ascii a && is_ascii b.
Proof.
  induction a as [| c a IH]; [reflexivity |].
  destruct c as [b0 b1 b2 b3 b4 b5 b6 b7]. cbn. rewrite IH.
  apply andb_assoc.
Qed.

Lemma string_of_uint_ascii (d : Decimal.uint) :
  is_ascii (NilEmpty.string_of_uint d) = true.
Proof. induction d; cbn; auto. Qed.

Lemma repr_int_ascii (n : Z) : is_ascii (repr_int n) = true.
Proof.
  unfold repr_int, NilZero.string_of_int, NilZero.string_of_uint.
  destruct (Z.to_int n) as [d | d]; destruct d; cbn;
    auto using string_of_uint_ascii.
Qed.

Section Encoding.

Variable rt : Runtime.

Let ok (text : string) : Prop := stdout_encodes rt text = true.

Lemma join_comma_encodable (parts : list string) :
  Forall ok parts -> ok (join_comma parts).
Proof.
  induction 1 as [| p rest Hp Hrest IH]; [apply encodes_ascii; reflexivity |].
  destruct rest as [| q rest]; [exact Hp |].
  change (ok (p ++ ", " ++ join_comma (q :: rest))).
  apply encodes_append; [exact Hp |].
  apply encodes_append; [apply encodes_ascii; reflexivity | exact IH].
Qed.

(** What [repr] gives can be written, whatever the value. *)
Lemma py_repr_encodable : forall v, ok (py_repr rt v).
Proof.
  fix IH 1. intros [| [|] | n | x | s | items | entries]; cbn [py_repr].
  - apply encodes_ascii; reflexivity.
  - apply encodes_ascii; reflexivity.
  - apply encodes_ascii; reflexivity.
  - apply encodes_ascii, repr_int_ascii.
  - apply encodes_repr_float.
  - apply encodes_repr_str.
  - apply encodes_append; [apply encodes_ascii; reflexivity |].
    apply encodes_append; [| apply encodes_ascii; reflexivity].
    apply join_comma_encodable.
    induction items as [| v items IHitems]; constructor; [apply IH | exact IHitems].
  - apply encodes_append; [apply encodes_ascii; reflexivity |].
    apply encodes_append; [| apply encodes_ascii; reflexivity].
    apply join_comma_encodable.
    induction entries as [| [k v] entries IHentries]; constructor; [| exact IHentries].
    apply encodes_append; [apply encodes_repr_str |].
    apply encodes_append; [apply encodes_ascii; reflexivity | apply IH].
Qed.

(** A text that can be written is written. *)
Lemma print_writes (text : string) :
  ok text -> print rt text = ([EvPrint text], Ret tt).
Proof. unfold ok, print. intros ->. reflexivity. Qed.

Lemma print_refuses (text : string) :
  stdout_encodes rt text = false ->
  print rt text = ([], Raise (mkExc "UnicodeEncodeError" (encode_error_str rt text))).
Proof. unfold print. intros ->. reflexivity. Qed.

Lemma data_line_encodable (entries : list (string * pyvalue)) :
  ok ("Data: " ++ py_str rt (PyDict entries)).
Proof.
  apply encodes_append; [apply encodes_ascii; reflexivity |].
  apply py_repr_encodable.
Qed.

Lemma owner_line_encodable (owner : pyvalue) :
  ok (py_str rt owner) -> ok ("Owner: " ++ py_str rt owner).
Proof. intro H. apply encodes_append; [apply encodes_ascii; reflexivity | exact H]. Qed.

End Encoding.

(** ** The runs of the script *)

Section Runs.

Variable w : World.

Let mint_line (mint_pda : bytes) : string :=
  "Mint Address: " ++ to_string (solders w) mint_pda.

(** The address line can always be written: base58 text is ASCII. *)
Lemma mint_line_encodable (mint_pda : bytes) :
  stdout_encodes (runtime w) (mint_line mint_pda) = true.
Proof.
  apply encodes_ascii. unfold mint_line. rewrite is_ascii_append.
  rewrite to_string_ascii. reflexivity.
Qed.

(** Derivation raised: nothing is printed, the exception leaves the file. *)
Lemma main_derivation_raises (e : PyExc) :
  derive (solders w) = Raise e -> main w = ([], Raise e).
Proof. intro Hd. unfold main. rewrite Hd. reflexivity. Qed.

(** Derivation returned: the address is printed, then the lookup runs. *)
Lemma main_derivation_returns (mint_pda : bytes) (bump : nat) :
  derive (solders w) = Ret (mint_pda, bump) ->
  main w = (EvPrint (mint_line mint_pda) :: trace (account_lookup w mint_pda),
            snd (account_lookup w mint_pda)).
Proof.
  intro Hd. unfold main. rewrite Hd. cbn [lift bind].
  fold (mint_line mint_pda).
  rewrite (print_writes _ _ (mint_line_encodable mint_pda)).
  destruct (account_lookup w mint_pda) as [t r]. reflexivity.
Qed.

Variable mint_pda : bytes.

Let argv : list string := solana_argv (solders w) mint_pda.

(** The tool could not be started. *)
Lemma body_run_raises (e : PyExc) :
  subprocess_run (host w) argv = Raise e ->
  lookup_body w mint_pda = ([EvRun argv], Raise e).
Proof. intro Hrun. unfold lookup_body. fold argv. rewrite Hrun. reflexivity. Qed.

(** The tool ran and exited with a code other than 0. *)
Lemma body_nonzero_exit (cp : CompletedProcess) :
  subprocess_run (host w) argv = Ret cp ->
  returncode cp <> 0%Z ->
  lookup_body w mint_pda =
  ([EvRun argv; EvPrint ("Error getting account: " ++ stderr cp)], Ret tt).
Proof.
  intros Hrun Hcode. unfold lookup_body. fold argv. rewrite Hrun. cbn [call bind].
  apply Z.eqb_neq in Hcode. rewrite Hcode.
  rewrite print_writes; [reflexivity |].
  apply encodes_append; [apply encodes_ascii; reflexivity |].
  exact (stderr_encodable w argv cp Hrun).
Qed.

(** The tool exited with code 0 and its output is not JSON. *)
Lemma body_loads_raises (cp : CompletedProcess) (e : PyExc) :
  subprocess_run (host w) argv = Ret cp ->
  returncode cp = 0%Z ->
  json_loads (runtime w) (stdout cp) = Raise e ->
  lookup_body w mint_pda = ([EvRun argv; EvLoads (stdout cp)], Raise e).
Proof.
  intros Hrun Hcode Hjson. unfold lookup_body. fold argv.
  rewrite Hrun. cbn [call bind]. rewrite Hcode, Hjson. reflexivity.
Qed.

(** The tool exited with code 0 and its output is JSON: the lookup of
    [owner] decides, and then whether the owner line can be written. *)
Lemma body_loads_returns (cp : CompletedProcess) (data : pyvalue) :
  subprocess_run (host w) argv = Ret cp ->
  returncode cp = 0%Z ->
  json_loads (runtime w) (stdout cp) = Ret data ->
  lookup_body w mint_pda =
  match py_get data "owner" with
  | Ret owner =>
      if stdout_encodes (runtime w) ("Owner: " ++ py_str (runtime w) owner) then
        ([EvRun argv; EvLoads (stdout cp);
          EvPrint ("Owner: " ++ py_str (runtime w) owner);
          EvPrint ("Data: " ++ py_str (runtime w) data)], Ret tt)
      else
        ([EvRun argv; EvLoads (stdout cp)],
         Raise (mkExc "UnicodeEncodeError"
                  (encode_error_str (runtime w)
                     ("Owner: " ++ py_str (runtime w) owner))))
  | Raise e => ([EvRun argv; EvLoads (stdout cp)], Raise e)
  end.
Proof.
  intros Hrun Hcode Hjson. unfold lookup_body. fold argv.
  rewrite Hrun. cbn [call bind]. rewrite Hcode, Hjson. cbn [Z.eqb call bind].
  destruct data; try reflexivity.
  cbn [py_get]. set (owner := match dict_lookup "owner" entries with
                              | Some x => x
                              | None => PyNone
                              end).
  replace (match dict_lookup "owner" entries with
           | Some x => Ret x
           | None => Ret PyNone
           end) with (Ret owner) by (subst owner; destruct (dict_lookup _ _); reflexivity).
  cbn [lift bind]. unfold print at 1.
  destruct (stdout_encodes (runtime w) ("Owner: " ++ py_str (runtime w) owner));
    [| reflexivity].
  rewrite (print_writes _ _ (data_line_encodable (runtime w) entries)).
  reflexivity.
Qed.

(** An instance of [Exception] raised by the body is reported, when the
    report can be written. *)
Lemma account_lookup_reports (t : list event) (e : PyExc) :
  lookup_body w mint_pda = (t, Raise e) ->
  is_Exception e = true ->
  stdout_encodes (runtime w) ("Exception: " ++ exc_str e) = true ->
  account_lookup w mint_pda =
  ((t ++ [EvPrint ("Exception: " ++ exc_str e)])%list, Ret tt).
Proof.
  intros Hbody Hclass Hline. unfold account_lookup, try_except, report.
  rewrite Hbody, Hclass, (print_writes _ _ Hline). reflexivity.
Qed.

(** An instance of [Exception] whose report cannot be written: the handler
    raises. *)
Lemma account_lookup_report_fails (t : list event) (e : PyExc) :
  lookup_body w mint_pda = (t, Raise e) ->
  is_Exception e = true ->
  stdout_encodes (runtime w) ("Exception: " ++ exc_str e) = false ->
  account_lookup w mint_pda =
  (t, Raise (mkExc "UnicodeEncodeError"
               (encode_error_str (runtime w) ("Exception: " ++ exc_str e)))).
Proof.
  intros Hbody Hclass Hline. unfold account_lookup, try_except, report.
  rewrite Hbody, Hclass, (print_refuses _ _ Hline). cbn.
  rewrite app_nil_r. reflexivity.
Qed.

(** Another exception of the body goes past the handler. *)
Lemma account_lookup_escapes (t : list event) (e : PyExc) :
  lookup_body w mint_pda = (t, Raise e) ->
  is_Exception e = false ->
  account_lookup w mint_pda = (t, Raise e).
Proof.
  intros Hbody Hclass. unfold account_lookup, try_except.
  rewrite Hbody, Hclass. reflexivity.
Qed.

Lemma account_lookup_passes (t : list event) :
  lookup_body w mint_pda = (t, Ret tt) ->
  account_lookup w mint_pda = (t, Ret tt).
Proof. intro Hbody. unfold account_lookup. rewrite Hbody. reflexivity. Qed.

(** Where the body stands when it raises: the tool has been started, the
    parser may have been called, nothing has been printed. *)
Lemma body_raises_before_printing (t : list event) (e : PyExc) :
  lookup_body w mint_pda = (t, Raise e) ->
  t = [EvRun argv] \/ exists cp, t = [EvRun argv; EvLoads (stdout cp)].
Proof.
  destruct (subprocess_run (host w) argv) as [cp | e'] eqn:Hrun.
  - destruct (returncode cp =? 0)%Z eqn:Hcode.
    + apply Z.eqb_eq in Hcode.
      destruct (json_loads (runtime w) (stdout cp)) as [data | e'] eqn:Hjson.
      * rewrite (body_loads_returns cp data Hrun Hcode Hjson).
        destruct (py_get data "owner") as [owner | e'].
        -- destruct (stdout_encodes _ _); intro H; inversion H.
           right. exists cp. reflexivity.
        -- intro H. inversion H. right. exists cp. reflexivity.
      * rewrite (body_loads_raises cp e' Hrun Hcode Hjson).
        intro H. inversion H. right. exists cp. reflexivity.
    + apply Z.eqb_neq in Hcode. rewrite (body_nonzero_exit cp Hrun Hcode).
      intro H. inversion H.
  - rewrite (body_run_raises e' Hrun). intro H. inversion H. left. reflexivity.
Qed.

End Runs.

(** The [try] statement when its body raised. *)
Lemma try_except_raised (rt : Runtime) (t : list event) (e : PyExc) :
  try_except (t, Raise e) (report rt) =
  if is_Exception e then
    if stdout_encodes rt ("Exception: " ++ exc_str e) then
      ((t ++ [EvPrint ("Exception: " ++ exc_str e)])%list, Ret tt)
    else
      (t, Raise (mkExc "UnicodeEncodeError"
                   (encode_error_str rt ("Exception: " ++ exc_str e))))
  else (t, Raise e).
Proof.
  unfold try_except, report, print.
  destruct (is_Exception e); [| reflexivity].
  destruct (stdout_encodes rt _); [reflexivity |].
  rewrite app_nil_r. reflexivity.
Qed.

(** The [try] statement, case by case. *)
Lemma account_lookup_by_cases (w : World) (mint_pda : bytes) :
  account_lookup w mint_pda =
  let argv := solana_argv (solders w) mint_pda in
  match subprocess_run (host w) argv with
  | Raise e => try_except ([EvRun argv], Raise e) (report (runtime w))
  | Ret cp =>
      if (returncode cp =? 0)%Z then
        match json_loads (runtime w) (stdout cp) with
        | Raise e =>
            try_except ([EvRun argv; EvLoads (stdout cp)], Raise e) (report (runtime w))
        | Ret data =>
            match py_get data "owner" with
            | Raise e =>
                try_except ([EvRun argv; EvLoads (stdout cp)], Raise e)
                           (report (runtime w))
            | Ret owner =>
                if stdout_encodes (runtime w) ("Owner: " ++ py_str (runtime w) owner) then
                  ([EvRun argv; EvLoads (stdout cp);
                    EvPrint ("Owner: " ++ py_str (runtime w) owner);
                    EvPrint ("Data: " ++ py_str (runtime w) data)], Ret tt)
                else
                  try_except
                    ([EvRun argv; EvLoads (stdout cp)],
                     Raise (mkExc "UnicodeEncodeError"
                              (encode_error_str (runtime w)
                                 ("Owner: " ++ py_str (runtime w) owner))))
                    (report (runtime w))
            end
        end
      else
        ([EvRun argv; EvPrint ("Error getting account: " ++ stderr cp)], Ret tt)
  end.
Proof.
  cbn zeta. unfold account_lookup.
  destruct (subprocess_run (host w) (solana_argv (solders w) mint_pda))
    as [cp | e] eqn:Hrun.
  - destruct (returncode cp =? 0)%Z eqn:Hcode.
    + apply Z.eqb_eq in Hcode.
      destruct (json_loads (runtime w) (stdout cp)) as [data | e] eqn:Hjson.
      * rewrite (body_loads_returns w mint_pda cp data Hrun Hcode Hjson).
        destruct (py_get data "owner") as [owner | e]; [| reflexivity].
        destruct (stdout_encodes (runtime w) _); reflexivity.
      * rewrite (body_loads_raises w mint_pda cp e Hrun Hcode Hjson). reflexivity.
    + apply Z.eqb_neq in Hcode.
      rewrite (body_nonzero_exit w mint_pda cp Hrun Hcode). reflexivity.
  - rewrite (body_run_raises w mint_pda e Hrun). reflexivity.
Qed.

(** Taking the cases of a run apart: the tool, the exit code, the parser,
    the lookup, then the handler and the encoder. *)
Ltac run_cases w mint_pda :=
  rewrite (account_lookup_by_cases w mint_pda); cbn zeta;
  destruct (subprocess_run (host w) (solana_argv (solders w) mint_pda)) as [?cp | ?e];
  [ destruct (returncode _ =? 0)%Z;
    [ destruct (json_loads (runtime w) _) as [?data | ?e];
      [ destruct (py_get _ "owner") as [?owner | ?e];
        [ destruct (stdout_encodes (runtime w) ("Owner: " ++ _)) | ] | ] | ] | ];
  rewrite ?try_except_raised;
  repeat match goal with
         | |- context [if is_Exception ?e then _ else _] => destruct (is_Exception e)
         | |- context [if stdout_encodes ?rt ?s then _ else _] =>
             destruct (stdout_encodes rt s)
         end.

(** ** Address derivation (spec 4.1) *)

(** C1.  Derivation is deterministic: the contract of spec 4.1 leaves a call
    one outcome.  Whatever two calls on the same program id and seeds give,
    if each outcome is one the contract allows, the two are equal, address
    and bump alike (or both the error); this outcome is the one the scan
    computes; and a returned address has 32 bytes and a bump that fits one
    byte.  This holds for every program id and seed list, so for the
    program id of line 6 and the seeds [[b"mint"]]. *)
Theorem derivation_deterministic
    (lib : Solders) (seeds : list bytes) (pid : bytes)
    (first second : result (bytes * nat)) :
  meets_contract lib seeds pid first ->
  meets_contract lib seeds pid second ->
  first = second /\
  first = find_program_address lib seeds pid /\
  (forall address bump,
      first = Ret (address, bump) ->
      length address = 32 /\ bump <= 255 /\ Byte.to_nat (bump_byte bump) = bump).
Proof.
  intros Hfirst Hsecond. split; [| split].
  - exact (meets_contract_unique lib seeds pid first second Hfirst Hsecond).
  - apply (meets_contract_unique lib seeds pid); [exact Hfirst |].
    apply find_program_address_meets_contract.
  - intros address bump ->. cbn in Hfirst.
    destruct Hfirst as (Hle & Haddr & _).
    split; [| split].
    + rewrite Haddr. apply candidate_address_32.
    + exact Hle.
    + apply bump_byte_to_nat. exact Hle.
Qed.

(** C2.  For every 32-byte program id (and every list of seeds), the address
    that derivation returns fails the curve test. *)
Theorem derived_address_off_curve
    (lib : Solders) (seeds : list bytes) (pid address : bytes) (bump : nat) :
  length pid = 32 ->
  find_program_address lib seeds pid = Ret (address, bump) ->
  is_on_curve lib address = false.
Proof.
  intros _ Hfound.
  apply find_program_address_found, search_found in Hfound. tauto.
Qed.

(** C3.  The bump that derivation returns is the first value, scanning from
    255 downward, whose candidate address fails the curve test: the returned
    address is the candidate of that bump, it is off the curve, and the
    candidate of every higher bump up to 255 is on the curve. *)
Theorem bump_is_first_off_curve
    (lib : Solders) (seeds : list bytes) (pid address : bytes) (bump : nat) :
  find_program_address lib seeds pid = Ret (address, bump) ->
  bump <= 255 /\
  address = candidate_address lib seeds (bump_byte bump) pid /\
  is_on_curve lib (candidate_address lib seeds (bump_byte bump) pid) = false /\
  (forall higher, bump < higher <= 255 ->
     is_on_curve lib (candidate_address lib seeds (bump_byte higher) pid) = true).
Proof.
  intro Hfound.
  apply find_program_address_found, search_found in Hfound.
  destruct Hfound as (Hle & Haddr & Hoff & Habove).
  rewrite Haddr in Hoff. auto.
Qed.

(** C8.  Derivation signals an error exactly when the candidates of all 256
    bumps are points of the curve; otherwise it returns an address and a
    bump. *)
Theorem derivation_fails_iff_exhausted
    (lib : Solders) (seeds : list bytes) (pid : bytes) :
  ((exists e, find_program_address lib seeds pid = Raise e) <->
   (forall bump, bump <= 255 ->
      is_on_curve lib (candidate_address lib seeds (bump_byte bump) pid) = true)) /\
  ((exists address bump, find_program_address lib seeds pid = Ret (address, bump)) <->
   (exists bump, bump <= 255 /\
      is_on_curve lib (candidate_address lib seeds (bump_byte bump) pid) = false)).
Proof.
  pose proof (search_exhausted lib seeds pid 255) as Hnone.
  pose proof (search_found lib seeds pid 255) as Hsome.
  unfold find_program_address.
  destruct (search lib seeds pid 255) as [[address bump] |].
  - destruct (Hsome address bump eq_refl) as (Hle & Haddr & Hoff & _).
    rewrite Haddr in Hoff. split; split.
    + intros [e He]. discriminate.
    + intro Hall. rewrite Hall in Hoff by exact Hle. discriminate.
    + intros _. exists bump. auto.
    + intros _. exists address, bump. reflexivity.
  - assert (Hall := proj1 Hnone eq_refl). split; split.
    + intros _. exact Hall.
    + intros _. exists no_viable_bump. reflexivity.
    + intros (address & bump & Hret). discriminate.
    + intros (bump & Hle & Hoff). rewrite Hall in Hoff by exact Hle. discriminate.
Qed.

(** ** Account lookup (spec 4.2) *)

Lemma append_empty_r (s : string) : s ++ "" = s.
Proof. induction s as [| c s IH]; cbn; congruence. Qed.

(** C4, as amended.  Success path: the tool exits with code 0, its output
    parses to a JSON object with an [owner] entry at the top level, and the
    text of the owner can be written to standard output.  The script parses
    the output and prints the value of that entry (for a string, the string
    itself), then the whole parsed object, and ends normally. *)
Theorem success_path_prints_owner
    (w : World) (mint_pda : bytes) (bump : nat) (cp : CompletedProcess)
    (entries : list (string * pyvalue)) (owner : pyvalue) :
  derive (solders w) = Ret (mint_pda, bump) ->
  subprocess_run (host w) (solana_argv (solders w) mint_pda) = Ret cp ->
  returncode cp = 0%Z ->
  json_loads (runtime w) (stdout cp) = Ret (PyDict entries) ->
  dict_lookup "owner" entries = Some owner ->
  stdout_encodes (runtime w) (py_str (runtime w) owner) = true ->
  main w =
    ([EvPrint ("Mint Address: " ++ to_string (solders w) mint_pda);
      EvRun (solana_argv (solders w) mint_pda);
      EvLoads (stdout cp);
      EvPrint ("Owner: " ++ py_str (runtime w) owner);
      EvPrint ("Data: " ++ py_str (runtime w) (PyDict entries))], Ret tt) /\
  (forall s, owner = PyStr s -> In ("Owner: " ++ s) (printed (main w))).
Proof.
  intros Hd Hrun Hcode Hjson Howner Htext.
  assert (Hmain : main w =
    ([EvPrint ("Mint Address: " ++ to_string (solders w) mint_pda);
      EvRun (solana_argv (solders w) mint_pda);
      EvLoads (stdout cp);
      EvPrint ("Owner: " ++ py_str (runtime w) owner);
      EvPrint ("Data: " ++ py_str (runtime w) (PyDict entries))], Ret tt)).
  { rewrite (main_derivation_returns w mint_pda bump Hd).
    pose proof (body_loads_returns w mint_pda cp _ Hrun Hcode Hjson) as Hbody.
    cbn [py_get] in Hbody. rewrite Howner in Hbody.
    rewrite (owner_line_encodable (runtime w) owner Htext) in Hbody.
    rewrite (account_lookup_passes w mint_pda _ Hbody). reflexivity. }
  split; [exact Hmain |].
  intros s ->. rewrite Hmain. cbn. auto.
Qed.

(** C5.  Failure path: the tool exits with a code other than 0.  The script
    prints one line that contains the tool's standard-error text unchanged,
    raises nothing, and does not hand the standard output to the JSON
    parser. *)
Theorem failure_path_prints_stderr
    (w : World) (mint_pda : bytes) (bump : nat) (cp : CompletedProcess) :
  derive (solders w) = Ret (mint_pda, bump) ->
  subprocess_run (host w) (solana_argv (solders w) mint_pda) = Ret cp ->
  returncode cp <> 0%Z ->
  printed (main w) =
    ["Mint Address: " ++ to_string (solders w) mint_pda;
     "Error getting account: " ++ stderr cp] /\
  occurs_in (stderr cp) ("Error getting account: " ++ stderr cp) /\
  outcome (main w) = Normal /\
  parsed (main w) = [].
Proof.
  intros Hd Hrun Hcode.
  rewrite (main_derivation_returns w mint_pda bump Hd).
  pose proof (body_nonzero_exit w mint_pda cp Hrun Hcode) as Hbody.
  rewrite (account_lookup_passes w mint_pda _ Hbody).
  repeat split.
  exists "Error getting account: ", "".
  rewrite append_empty_r. reflexivity.
Qed.

(** C6, as amended.  An exception that is an instance of [Exception],
    raised by the subprocess invocation (such as a missing tool) or by the
    JSON parser (malformed output on exit code 0), is caught by the handler:
    when its report can be written to standard output, the script prints one
    line [Exception: ...] with the text of the exception and ends
    normally. *)
Theorem invocation_and_parsing_errors_caught
    (w : World) (mint_pda : bytes) (bump : nat) (e : PyExc) :
  derive (solders w) = Ret (mint_pda, bump) ->
  (subprocess_run (host w) (solana_argv (solders w) mint_pda) = Raise e \/
   exists cp,
     subprocess_run (host w) (solana_argv (solders w) mint_pda) = Ret cp /\
     returncode cp = 0%Z /\
     json_loads (runtime w) (stdout cp) = Raise e) ->
  is_Exception e = true ->
  stdout_encodes (runtime w) ("Exception: " ++ exc_str e) = true ->
  printed (main w) =
    ["Mint Address: " ++ to_string (solders w) mint_pda;
     "Exception: " ++ exc_str e] /\
  outcome (main w) = Normal.
Proof.
  intros Hd Hraised Hclass Hline.
  rewrite (main_derivation_returns w mint_pda bump Hd).
  destruct Hraised as [Hrun | (cp & Hrun & Hcode & Hjson)].
  - pose proof (body_run_raises w mint_pda e Hrun) as Hbody.
    rewrite (account_lookup_reports w mint_pda _ e Hbody Hclass Hline).
    split; reflexivity.
  - pose proof (body_loads_raises w mint_pda cp e Hrun Hcode Hjson) as Hbody.
    rewrite (account_lookup_reports w mint_pda _ e Hbody Hclass Hline).
    split; reflexivity.
Qed.

(** C9.  The one command line the script runs is [solana account <address>
    --output json], where [<address>] is the string form of the address that
    derivation returned. *)
Theorem lookup_queries_derived_address
    (w : World) (mint_pda : bytes) (bump : nat) :
  derive (solders w) = Ret (mint_pda, bump) ->
  invocations (main w) =
    [["solana"; "account"; to_string (solders w) mint_pda; "--output"; "json"]].
Proof.
  intro Hd.
  rewrite (main_derivation_returns w mint_pda bump Hd).
  unfold invocations. cbn [trace fst invocations_of].
  fold (solana_argv (solders w) mint_pda).
  run_cases w mint_pda; reflexivity.
Qed.

(** C10, as amended.  The tool exits with code 0 and its output parses to a
    JSON object without an [owner] entry: the lookup gives [None], the
    script prints [Owner: None] and the parsed object, and ends normally,
    without entering the handler. *)
Theorem missing_owner_prints_None
    (w : World) (mint_pda : bytes) (bump : nat) (cp : CompletedProcess)
    (entries : list (string * pyvalue)) :
  derive (solders w) = Ret (mint_pda, bump) ->
  subprocess_run (host w) (solana_argv (solders w) mint_pda) = Ret cp ->
  returncode cp = 0%Z ->
  json_loads (runtime w) (stdout cp) = Ret (PyDict entries) ->
  dict_lookup "owner" entries = None ->
  lookup_body w mint_pda =
    ([EvRun (solana_argv (solders w) mint_pda);
      EvLoads (stdout cp);
      EvPrint "Owner: None";
      EvPrint ("Data: " ++ py_str (runtime w) (PyDict entries))], Ret tt) /\
  printed (main w) =
    ["Mint Address: " ++ to_string (solders w) mint_pda;
     "Owner: None";
     "Data: " ++ py_str (runtime w) (PyDict entries)] /\
  outcome (main w) = Normal.
Proof.
  intros Hd Hrun Hcode Hjson Howner.
  pose proof (body_loads_returns w mint_pda cp _ Hrun Hcode Hjson) as Hbody.
  cbn [py_get] in Hbody. rewrite Howner in Hbody.
  assert (Hnone : stdout_encodes (runtime w)
                    ("Owner: " ++ py_str (runtime w) PyNone) = true)
    by (apply encodes_ascii; reflexivity).
  rewrite Hnone in Hbody.
  split; [exact Hbody |].
  rewrite (main_derivation_returns w mint_pda bump Hd).
  rewrite (account_lookup_passes w mint_pda _ Hbody).
  split; reflexivity.
Qed.

(** ** The reach of the handler (spec 7) *)

(** C7, as amended.  When derivation returns and the body of the [try]
    statement raises nothing, the script ends normally.  An exception of the
    body that is an instance of [Exception] is caught and reported as one
    line [Exception: ...]; the report written, the script ends normally.  An
    exception of the body outside [Exception] is not caught: it ends the
    script, after the address line alone.  When derivation raises, the
    exception is not caught either: it leaves the script before anything is
    printed or run. *)
Theorem handler_covers_try_body_only (w : World) :
  match derive (solders w) with
  | Ret (mint_pda, _) =>
      (forall t, lookup_body w mint_pda = (t, Ret tt) -> outcome (main w) = Normal) /\
      (forall t e,
          lookup_body w mint_pda = (t, Raise e) ->
          is_Exception e = true ->
          stdout_encodes (runtime w) ("Exception: " ++ exc_str e) = true ->
          printed (main w) =
            ["Mint Address: " ++ to_string (solders w) mint_pda;
             "Exception: " ++ exc_str e] /\
          outcome (main w) = Normal) /\
      (forall t e,
          lookup_body w mint_pda = (t, Raise e) ->
          is_Exception e = false ->
          printed (main w) = ["Mint Address: " ++ to_string (solders w) mint_pda] /\
          outcome (main w) = Uncaught e)
  | Raise e =>
      outcome (main w) = Uncaught e /\ trace (main w) = []
  end.
Proof.
  destruct (derive (solders w)) as [[mint_pda bump] | e] eqn:Hd.
  - rewrite (main_derivation_returns w mint_pda bump Hd).
    split; [| split].
    + intros t Hbody.
      rewrite (account_lookup_passes w mint_pda t Hbody). reflexivity.
    + intros t e Hbody Hclass Hline.
      rewrite (account_lookup_reports w mint_pda t e Hbody Hclass Hline).
      destruct (body_raises_before_printing w mint_pda t e Hbody) as [-> | [cp ->]];
        split; reflexivity.
    + intros t e Hbody Hclass.
      rewrite (account_lookup_escapes w mint_pda t e Hbody Hclass).
      destruct (body_raises_before_printing w mint_pda t e Hbody) as [-> | [cp ->]];
        split; reflexivity.
  - rewrite (main_derivation_raises w e Hd). split; reflexivity.
Qed.

(** * Further properties of the script *)

(** X1.  The tool exits with code 0 and its output is valid JSON that is not
    an object (a list, a string, a number, [true], [false] or [null]): the
    lookup of [owner] raises AttributeError, the handler reports it with the
    name of the value's type, and neither an owner nor the data is printed. *)
Theorem non_object_json_reported
    (w : World) (mint_pda : bytes) (bump : nat) (cp : CompletedProcess)
    (data : pyvalue) :
  derive (solders w) = Ret (mint_pda, bump) ->
  subprocess_run (host w) (solana_argv (solders w) mint_pda) = Ret cp ->
  returncode cp = 0%Z ->
  json_loads (runtime w) (stdout cp) = Ret data ->
  (forall entries, data <> PyDict entries) ->
  printed (main w) =
    ["Mint Address: " ++ to_string (solders w) mint_pda;
     "Exception: '" ++ type_name data ++ "' object has no attribute 'get'"] /\
  outcome (main w) = Normal.
Proof.
  intros Hd Hrun Hcode Hjson Hshape.
  rewrite (main_derivation_returns w mint_pda bump Hd).
  pose proof (body_loads_returns w mint_pda cp data Hrun Hcode Hjson) as Hbody.
  destruct data; try (exfalso; exact (Hshape entries eq_refl));
    cbn [py_get] in Hbody;
    (rewrite (account_lookup_reports w mint_pda _ _ Hbody eq_refl);
     [split; reflexivity | apply encodes_ascii; reflexivity]).
Qed.

(** X2.  When derivation returns and the script ends normally, it has
    printed the address line followed by exactly one of three reports: the
    owner and the data (exit code 0, output parsed, lookup done, owner line
    written), the tool's error text (exit code other than 0), or one
    exception line (for an instance of [Exception] raised in the body of the
    [try] statement). *)
Theorem output_has_three_shapes (w : World) (mint_pda : bytes) (bump : nat) :
  derive (solders w) = Ret (mint_pda, bump) ->
  outcome (main w) = Normal ->
  exists report_lines,
    printed (main w) =
      ("Mint Address: " ++ to_string (solders w) mint_pda) :: report_lines /\
    ((exists cp data owner,
         subprocess_run (host w) (solana_argv (solders w) mint_pda) = Ret cp /\
         returncode cp = 0%Z /\
         json_loads (runtime w) (stdout cp) = Ret data /\
         py_get data "owner" = Ret owner /\
         report_lines = ["Owner: " ++ py_str (runtime w) owner;
                         "Data: " ++ py_str (runtime w) data]) \/
     (exists cp,
         subprocess_run (host w) (solana_argv (solders w) mint_pda) = Ret cp /\
         returncode cp <> 0%Z /\
         report_lines = ["Error getting account: " ++ stderr cp]) \/
     (exists e,
         snd (lookup_body w mint_pda) = Raise e /\
         is_Exception e = true /\
         report_lines = ["Exception: " ++ exc_str e])).
Proof.
  intros Hd. rewrite (main_derivation_returns w mint_pda bump Hd).
  unfold outcome, printed. cbn [snd fst trace printed_of].
  destruct (lookup_body w mint_pda) as [t [[] | e]] eqn:Hbody.
  - (* the body returned *)
    intros _. rewrite (account_lookup_passes w mint_pda t Hbody). cbn [fst].
    exists (printed_of t). split; [reflexivity |].
    destruct (subprocess_run (host w) (solana_argv (solders w) mint_pda))
      as [cp | e] eqn:Hrun.
    + destruct (returncode cp =? 0)%Z eqn:Hcode.
      * apply Z.eqb_eq in Hcode.
        destruct (json_loads (runtime w) (stdout cp)) as [data | e] eqn:Hjson.
        -- rewrite (body_loads_returns w mint_pda cp data Hrun Hcode Hjson) in Hbody.
           destruct (py_get data "owner") as [owner | e] eqn:Hget; [| discriminate].
           destruct (stdout_encodes (runtime w) _); [| discriminate].
           injection Hbody as <-. left. exists cp, data, owner. auto.
        -- rewrite (body_loads_raises w mint_pda cp e Hrun Hcode Hjson) in Hbody.
           discriminate.
      * apply Z.eqb_neq in Hcode.
        rewrite (body_nonzero_exit w mint_pda cp Hrun Hcode) in Hbody.
        injection Hbody as <-. right. left. exists cp. auto.
    + rewrite (body_run_raises w mint_pda e Hrun) in Hbody. discriminate.
  - (* the body raised *)
    destruct (is_Exception e) eqn:Hclass.
    + destruct (stdout_encodes (runtime w) ("Exception: " ++ exc_str e)) eqn:Hline.
      * rewrite (account_lookup_reports w mint_pda t e Hbody Hclass Hline).
        intros _. exists ["Exception: " ++ exc_str e]. split.
        -- destruct (body_raises_before_printing w mint_pda t e Hbody)
             as [-> | [cp ->]]; reflexivity.
        -- right. right. exists e. auto.
      * rewrite (account_lookup_report_fails w mint_pda t e Hbody Hclass Hline).
        discriminate.
    + rewrite (account_lookup_escapes w mint_pda t e Hbody Hclass). discriminate.
Qed.

(** X3.  When derivation returns, the address line is printed before the
    tool is started, the tool is started on the very address that was
    printed, and it is not started again; when the script ends normally, at
    least one more line is printed after the invocation. *)
Theorem address_printed_then_queried (w : World) (mint_pda : bytes) (bump : nat) :
  derive (solders w) = Ret (mint_pda, bump) ->
  exists rest,
    trace (main w) =
      EvPrint ("Mint Address: " ++ to_string (solders w) mint_pda)
      :: EvRun ["solana"; "account"; to_string (solders w) mint_pda; "--output"; "json"]
      :: rest /\
    invocations_of rest = [] /\
    (outcome (main w) = Normal -> printed_of rest <> []).
Proof.
  intro Hd. rewrite (main_derivation_returns w mint_pda bump Hd).
  unfold outcome. cbn [trace fst snd].
  fold (solana_argv (solders w) mint_pda).
  run_cases w mint_pda; cbn;
    eexists; (split; [reflexivity | split; [reflexivity | intro; discriminate]]).
Qed.

(** X4.  When derivation returns, the JSON parser is called exactly when the
    tool ran and exited with code 0, once, on the tool's standard output as
    it is; after another exit code, or when the tool could not be started,
    it is not called. *)
Theorem parser_called_iff_exit_zero (w : World) (mint_pda : bytes) (bump : nat) :
  derive (solders w) = Ret (mint_pda, bump) ->
  parsed (main w) =
    match subprocess_run (host w) (solana_argv (solders w) mint_pda) with
    | Ret cp => if (returncode cp =? 0)%Z then [stdout cp] else []
    | Raise _ => []
    end.
Proof.
  intro Hd. rewrite (main_derivation_returns w mint_pda bump Hd).
  unfold parsed. cbn [trace fst parsed_of].
  run_cases w mint_pda; reflexivity.
Qed.

(** X5.  The line [Owner: None] does not tell a missing owner from a null
    one or from the string [None]: on the success path with a JSON object,
    the script prints that same line when the object has no [owner] entry,
    when the entry is [null], and when it is the text [None]. *)
Theorem owner_None_is_ambiguous
    (w : World) (mint_pda : bytes) (bump : nat) (cp : CompletedProcess)
    (entries : list (string * pyvalue)) :
  derive (solders w) = Ret (mint_pda, bump) ->
  subprocess_run (host w) (solana_argv (solders w) mint_pda) = Ret cp ->
  returncode cp = 0%Z ->
  json_loads (runtime w) (stdout cp) = Ret (PyDict entries) ->
  (dict_lookup "owner" entries = None \/
   dict_lookup "owner" entries = Some PyNone \/
   dict_lookup "owner" entries = Some (PyStr "None")) ->
  printed (main w) =
    ["Mint Address: " ++ to_string (solders w) mint_pda;
     "Owner: None";
     "Data: " ++ py_str (runtime w) (PyDict entries)].
Proof.
  intros Hd Hrun Hcode Hjson Howner.
  rewrite (main_derivation_returns w mint_pda bump Hd).
  pose proof (body_loads_returns w mint_pda cp _ Hrun Hcode Hjson) as Hbody.
  cbn [py_get] in Hbody.
  assert (Hnone : forall owner,
             py_str (runtime w) owner = "None" ->
             stdout_encodes (runtime w) ("Owner: " ++ py_str (runtime w) owner) = true)
    by (intros owner ->; apply encodes_ascii; reflexivity).
  destruct Howner as [Hl | [Hl | Hl]]; rewrite Hl in Hbody;
    [ rewrite (Hnone PyNone eq_refl) in Hbody
    | rewrite (Hnone PyNone eq_refl) in Hbody
    | rewrite (Hnone (PyStr "None") eq_refl) in Hbody ];
    rewrite (account_lookup_passes w mint_pda _ Hbody); reflexivity.
Qed.

(** X6.  In every run, also one in which derivation fails, the script starts
    the tool at most once, calls the JSON parser at most once and prints at
    most three lines; and wherever the parser is called in the run, the tool
    has been started before that call and is not started after it. *)
Theorem at_most_one_invocation_and_parse (w : World) :
  length (invocations (main w)) <= 1 /\
  length (parsed (main w)) <= 1 /\
  length (printed (main w)) <= 3 /\
  (forall before text after,
      trace (main w) = (before ++ EvLoads text :: after)%list ->
      invocations_of before <> [] /\ invocations_of after = []).
Proof.
  destruct (derive (solders w)) as [[mint_pda bump] | e] eqn:Hd.
  - rewrite (main_derivation_returns w mint_pda bump Hd).
    unfold invocations, parsed, printed. cbn [trace fst].
    run_cases w mint_pda; cbn;
      (split; [lia | split; [lia | split; [lia |]]]);
      intros before text after Htrace;
      repeat (destruct before as [| ? before]; cbn in Htrace;
              [ try discriminate Htrace
              | try discriminate Htrace; injection Htrace as <- Htrace ]);
      try discriminate Htrace;
      try (injection Htrace as <- <-; cbn; split; [discriminate | reflexivity]).
  - rewrite (main_derivation_raises w e Hd). cbn.
    split; [lia | split; [lia | split; [lia |]]].
    intros before text after Htrace. destruct before; discriminate.
Qed.

(** X7.  The tool exits with code 0 and its output parses to a JSON object
    whose [owner] is a string that standard output cannot encode (a lone
    surrogate can come out of [json.loads]): the print of the owner line
    raises UnicodeEncodeError inside the [try] statement, the handler
    reports that error, and neither the owner nor the data is printed. *)
Theorem unencodable_owner_reported
    (w : World) (mint_pda : bytes) (bump : nat) (cp : CompletedProcess)
    (entries : list (string * pyvalue)) (s : string) :
  derive (solders w) = Ret (mint_pda, bump) ->
  subprocess_run (host w) (solana_argv (solders w) mint_pda) = Ret cp ->
  returncode cp = 0%Z ->
  json_loads (runtime w) (stdout cp) = Ret (PyDict entries) ->
  dict_lookup "owner" entries = Some (PyStr s) ->
  stdout_encodes (runtime w) ("Owner: " ++ s) = false ->
  stdout_encodes (runtime w)
    ("Exception: " ++ encode_error_str (runtime w) ("Owner: " ++ s)) = true ->
  printed (main w) =
    ["Mint Address: " ++ to_string (solders w) mint_pda;
     "Exception: " ++ encode_error_str (runtime w) ("Owner: " ++ s)] /\
  outcome (main w) = Normal.
Proof.
  intros Hd Hrun Hcode Hjson Howner Hrefused Hline.
  rewrite (main_derivation_returns w mint_pda bump Hd).
  pose proof (body_loads_returns w mint_pda cp _ Hrun Hcode Hjson) as Hbody.
  cbn [py_get] in Hbody. rewrite Howner in Hbody.
  cbn [py_str] in Hbody. rewrite Hrefused in Hbody.
  rewrite (account_lookup_reports w mint_pda _ _ Hbody eq_refl Hline).
  split; reflexivity.
Qed.

(** * Runs on the mocked collaborators *)

Lemma derivation_deterministic_witness :
  meets_contract Mock.lib SEEDS Mock.program_id (Ret (Mock.mint_pda, 253)) /\
  find_program_address Mock.lib SEEDS Mock.program_id = Ret (Mock.mint_pda, 253) /\
  length Mock.mint_pda = 32.
Proof.
  assert (Hmeets : meets_contract Mock.lib SEEDS Mock.program_id
                     (Ret (Mock.mint_pda, 253))).
  { cbn [meets_contract].
    split; [lia | split; [reflexivity | split; [reflexivity |]]].
    intros higher Hrange.
    assert (Hcases : higher = 254 \/ higher = 255) by lia.
    destruct Hcases as [-> | ->]; reflexivity. }
  pose proof (derivation_deterministic
                Mock.lib SEEDS Mock.program_id
                (Ret (Mock.mint_pda, 253)) (Ret (Mock.mint_pda, 253))
                Hmeets Hmeets) as (_ & Hscan & Hsize).
  split; [exact Hmeets | split].
  - symmetry. exact Hscan.
  - exact (proj1 (Hsize Mock.mint_pda 253 eq_refl)).
Defined.

Lemma derived_address_off_curve_witness :
  length Mock.program_id = 32 /\
  find_program_address Mock.lib SEEDS Mock.program_id = Ret (Mock.mint_pda, 253) /\
  is_on_curve Mock.lib Mock.mint_pda = false.
Proof.
  split; [reflexivity | split; [reflexivity |]].
  apply (derived_address_off_curve Mock.lib SEEDS Mock.program_id Mock.mint_pda 253);
    reflexivity.
Defined.

Lemma bump_is_first_off_curve_witness :
  find_program_address Mock.lib SEEDS Mock.program_id = Ret (Mock.mint_pda, 253) /\
  is_on_curve Mock.lib
    (candidate_address Mock.lib SEEDS (bump_byte 254) Mock.program_id) = true.
Proof.
  split; [reflexivity |].
  apply (bump_is_first_off_curve Mock.lib SEEDS Mock.program_id Mock.mint_pda 253 eq_refl).
  lia.
Defined.

Lemma success_path_prints_owner_witness :
  derive Mock.lib = Ret (Mock.mint_pda, 253) /\
  subprocess_run (Mock.tool_prints Mock.json_with_owner)
    (solana_argv Mock.lib Mock.mint_pda)
    = Ret {| returncode := 0; stdout := Mock.json_with_owner; stderr := "" |} /\
  json_loads Mock.rt Mock.json_with_owner = Ret (PyDict [("owner", PyStr Mock.owner_id)]) /\
  dict_lookup "owner" [("owner", PyStr Mock.owner_id)] = Some (PyStr Mock.owner_id) /\
  stdout_encodes Mock.rt Mock.owner_id = true /\
  In ("Owner: " ++ Mock.owner_id)
     (printed (main (Mock.world (Mock.tool_prints Mock.json_with_owner)))).
Proof.
  repeat (split; [reflexivity |]).
  apply (success_path_prints_owner
           (Mock.world (Mock.tool_prints Mock.json_with_owner)) Mock.mint_pda 253
           {| returncode := 0; stdout := Mock.json_with_owner; stderr := "" |}
           [("owner", PyStr Mock.owner_id)] (PyStr Mock.owner_id)
           eq_refl eq_refl eq_refl eq_refl eq_refl eq_refl).
  reflexivity.
Defined.

Lemma failure_path_prints_stderr_witness :
  derive Mock.lib = Ret (Mock.mint_pda, 253) /\
  subprocess_run (Mock.tool_fails "boom") (solana_argv Mock.lib Mock.mint_pda)
    = Ret {| returncode := 1; stdout := ""; stderr := "boom" |} /\
  1%Z <> 0%Z /\
  printed (main (Mock.world (Mock.tool_fails "boom")))
    = ["Mint Address: " ++ Mock.hex_of_bytes Mock.mint_pda;
       "Error getting account: boom"] /\
  occurs_in "boom" "Error getting account: boom".
Proof.
  split; [reflexivity | split; [reflexivity | split; [discriminate |]]].
  pose proof (failure_path_prints_stderr
                (Mock.world (Mock.tool_fails "boom")) Mock.mint_pda 253
                {| returncode := 1; stdout := ""; stderr := "boom" |}
                eq_refl eq_refl) as H.
  assert (Hcode : 1%Z <> 0%Z) by discriminate.
  destruct (H Hcode) as (Hprinted & Hoccurs & _).
  split; [exact Hprinted | exact Hoccurs].
Defined.

Lemma invocation_and_parsing_errors_caught_witness :
  derive Mock.lib = Ret (Mock.mint_pda, 253) /\
  json_loads Mock.rt "{oops"
    = Raise (mkExc "JSONDecodeError" "Expecting value: line 1 column 1 (char 0)") /\
  is_Exception (mkExc "JSONDecodeError" "Expecting value: line 1 column 1 (char 0)")
    = true /\
  printed (main (Mock.world (Mock.tool_prints "{oops")))
    = ["Mint Address: " ++ Mock.hex_of_bytes Mock.mint_pda;
       "Exception: Expecting value: line 1 column 1 (char 0)"] /\
  outcome (main (Mock.world (Mock.tool_prints "{oops"))) = Normal.
Proof.
  split; [reflexivity | split; [reflexivity | split; [reflexivity |]]].
  apply (invocation_and_parsing_errors_caught
           (Mock.world (Mock.tool_prints "{oops")) Mock.mint_pda 253
           (mkExc "JSONDecodeError" "Expecting value: line 1 column 1 (char 0)")
           eq_refl);
    [| reflexivity | reflexivity].
  right. exists {| returncode := 0; stdout := "{oops"; stderr := "" |}.
  repeat split.
Defined.

Lemma lookup_queries_derived_address_witness :
  derive Mock.lib = Ret (Mock.mint_pda, 253) /\
  invocations (main (Mock.world Mock.tool_missing))
    = [["solana"; "account"; Mock.hex_of_bytes Mock.mint_pda; "--output"; "json"]].
Proof.
  split; [reflexivity |].
  exact (lookup_queries_derived_address
           (Mock.world Mock.tool_missing) Mock.mint_pda 253 eq_refl).
Defined.

Lemma missing_owner_prints_None_witness :
  derive Mock.lib = Ret (Mock.mint_pda, 253) /\
  json_loads Mock.rt Mock.json_without_owner = Ret (PyDict [("lamports", PyInt 1461600)]) /\
  dict_lookup "owner" [("lamports", PyInt 1461600)] = None /\
  printed (main (Mock.world (Mock.tool_prints Mock.json_without_owner)))
    = ["Mint Address: " ++ Mock.hex_of_bytes Mock.mint_pda;
       "Owner: None";
       "Data: {'lamports': 1461600}"].
Proof.
  repeat (split; [reflexivity |]).
  exact (proj1 (proj2 (missing_owner_prints_None
           (Mock.world (Mock.tool_prints Mock.json_without_owner)) Mock.mint_pda 253
           {| returncode := 0; stdout := Mock.json_without_owner; stderr := "" |}
           [("lamports", PyInt 1461600)]
           eq_refl eq_refl eq_refl eq_refl eq_refl))).
Defined.

(** C4 as stated fails.  [{"account": {"owner": ...}}] is valid JSON that
    contains an [owner] field, and on it the script prints [Owner: None],
    not the owner.  And with an owner that standard output cannot encode,
    [{"owner": "\ud800"}], the script prints an exception line and neither
    the owner nor the data. *)
Lemma owner_field_not_printed :
  (json_loads Mock.rt_nested_owner Mock.json_nested_owner
     = Ret (PyDict [("account", PyDict [("owner", PyStr Mock.owner_id)])]) /\
   printed (main Mock.world_nested_owner)
     = ["Mint Address: " ++ Mock.hex_of_bytes Mock.mint_pda;
        "Owner: None";
        "Data: {'account': {'owner': 'TokenkegQfeZyiNwAJbNbGKPFXCWuBvf9Ss623VQ5DA'}}"] /\
   ~ In ("Owner: " ++ Mock.owner_id) (printed (main Mock.world_nested_owner))) /\
  (json_loads Mock.rt_strict Mock.json_surrogate_owner
     = Ret (PyDict [("owner", PyStr Mock.lone_surrogate)]) /\
   printed (main Mock.world_strict)
     = ["Mint Address: " ++ Mock.hex_of_bytes Mock.mint_pda;
        "Exception: 'utf-8' codec can't encode character '\ud800' in position 7: surrogates not allowed"] /\
   ~ In ("Owner: " ++ Mock.lone_surrogate) (printed (main Mock.world_strict))).
Proof.
  split; (split; [reflexivity | split; [reflexivity |]]).
  - cbv. intros [H | [H | [H | []]]]; discriminate.
  - cbv. intros [H | [H | []]]; discriminate.
Qed.

(** C6 as stated fails: the user interrupts the script while it waits for
    the tool, [subprocess.run] raises KeyboardInterrupt, which is not an
    instance of [Exception]; the handler does not take it, no exception line
    is printed and the script ends with the exception. *)
Lemma keyboard_interrupt_not_caught :
  subprocess_run Mock.tool_interrupted (solana_argv Mock.lib Mock.mint_pda)
    = Raise (mkExc "KeyboardInterrupt" "") /\
  is_Exception (mkExc "KeyboardInterrupt" "") = false /\
  printed (main (Mock.world Mock.tool_interrupted))
    = ["Mint Address: " ++ Mock.hex_of_bytes Mock.mint_pda] /\
  outcome (main (Mock.world Mock.tool_interrupted))
    = Uncaught (mkExc "KeyboardInterrupt" "") /\
  outcome (main (Mock.world Mock.tool_interrupted)) <> Normal.
Proof.
  repeat (split; [reflexivity |]).
  cbv. discriminate.
Qed.

(** C7 as stated fails: with a library for which all 256 candidates are
    points of the curve, derivation raises, the exception is not caught and
    the script prints no message. *)
Lemma derivation_error_not_caught :
  derive (solders (Mock.world_all_on_curve Mock.tool_missing)) = Raise no_viable_bump /\
  outcome (main (Mock.world_all_on_curve Mock.tool_missing)) <> Normal /\
  outcome (main (Mock.world_all_on_curve Mock.tool_missing)) = Uncaught no_viable_bump /\
  printed (main (Mock.world_all_on_curve Mock.tool_missing)) = [].
Proof.
  split; [reflexivity | split; [| split; reflexivity]].
  cbv. discriminate.
Qed.

(** C10 as stated fails: [[]] is valid JSON without an [owner] key, and on
    it the script enters the handler and does not print [Owner: None]. *)
Lemma owner_lookup_raises_on_array :
  subprocess_run (Mock.tool_prints Mock.json_array) (solana_argv Mock.lib Mock.mint_pda)
    = Ret {| returncode := 0; stdout := "[]"; stderr := "" |} /\
  json_loads Mock.rt "[]" = Ret (PyList []) /\
  py_get (PyList []) "owner"
    = Raise (mkExc "AttributeError" "'list' object has no attribute 'get'") /\
  printed (main (Mock.world (Mock.tool_prints Mock.json_array)))
    = ["Mint Address: " ++ Mock.hex_of_bytes Mock.mint_pda;
       "Exception: 'list' object has no attribute 'get'"] /\
  ~ In "Owner: None" (printed (main (Mock.world (Mock.tool_prints Mock.json_array)))).
Proof.
  repeat (split; [reflexivity |]).
  cbv. intros [H | [H | []]]; discriminate.
Qed.

Lemma non_object_json_reported_witness :
  derive Mock.lib = Ret (Mock.mint_pda, 253) /\
  json_loads Mock.rt "[]" = Ret (PyList []) /\
  (forall entries, PyList [] <> PyDict entries) /\
  printed (main (Mock.world (Mock.tool_prints Mock.json_array)))
    = ["Mint Address: " ++ Mock.hex_of_bytes Mock.mint_pda;
       "Exception: 'list' object has no attribute 'get'"].
Proof.
  split; [reflexivity | split; [reflexivity | split; [discriminate |]]].
  assert (Hshape : forall entries, PyList [] <> PyDict entries) by discriminate.
  exact (proj1 (non_object_json_reported
                  (Mock.world (Mock.tool_prints Mock.json_array)) Mock.mint_pda 253
                  {| returncode := 0; stdout := "[]"; stderr := "" |} (PyList [])
                  eq_refl eq_refl eq_refl eq_refl Hshape)).
Defined.

Lemma output_has_three_shapes_witness :
  derive Mock.lib = Ret (Mock.mint_pda, 253) /\
  outcome (main (Mock.world (Mock.tool_fails "boom"))) = Normal /\
  exists report_lines,
    printed (main (Mock.world (Mock.tool_fails "boom")))
      = ("Mint Address: " ++ Mock.hex_of_bytes Mock.mint_pda) :: report_lines.
Proof.
  split; [reflexivity | split; [reflexivity |]].
  destruct (output_has_three_shapes
              (Mock.world (Mock.tool_fails "boom")) Mock.mint_pda 253
              eq_refl eq_refl) as (report_lines & Hprinted & _).
  exists report_lines. exact Hprinted.
Defined.

Lemma address_printed_then_queried_witness :
  derive Mock.lib = Ret (Mock.mint_pda, 253) /\
  exists rest,
    trace (main (Mock.world Mock.tool_missing)) =
      EvPrint ("Mint Address: " ++ Mock.hex_of_bytes Mock.mint_pda)
      :: EvRun ["solana"; "account"; Mock.hex_of_bytes Mock.mint_pda; "--output"; "json"]
      :: rest /\
    invocations_of rest = [] /\
    (outcome (main (Mock.world Mock.tool_missing)) = Normal -> printed_of rest <> []).
Proof.
  split; [reflexivity |].
  exact (address_printed_then_queried
           (Mock.world Mock.tool_missing) Mock.mint_pda 253 eq_refl).
Defined.

Lemma parser_called_iff_exit_zero_witness :
  derive Mock.lib = Ret (Mock.mint_pda, 253) /\
  parsed (main (Mock.world (Mock.tool_prints "{oops"))) = ["{oops"].
Proof.
  split; [reflexivity |].
  exact (parser_called_iff_exit_zero
           (Mock.world (Mock.tool_prints "{oops")) Mock.mint_pda 253 eq_refl).
Defined.

Lemma owner_None_is_ambiguous_witness :
  derive Mock.lib = Ret (Mock.mint_pda, 253) /\
  json_loads Mock.rt_null_owner Mock.json_null_owner = Ret (PyDict [("owner", PyNone)]) /\
  dict_lookup "owner" [("owner", PyNone)] = Some PyNone /\
  printed (main Mock.world_null_owner)
    = ["Mint Address: " ++ Mock.hex_of_bytes Mock.mint_pda;
       "Owner: None";
       "Data: {'owner': None}"].
Proof.
  repeat (split; [reflexivity |]).
  exact (owner_None_is_ambiguous
           Mock.world_null_owner Mock.mint_pda 253
           {| returncode := 0; stdout := Mock.json_null_owner; stderr := "" |}
           [("owner", PyNone)]
           eq_refl eq_refl eq_refl eq_refl (or_intror (or_introl eq_refl))).
Defined.

Lemma unencodable_owner_reported_witness :
  derive Mock.lib = Ret (Mock.mint_pda, 253) /\
  json_loads Mock.rt_strict Mock.json_surrogate_owner
    = Ret (PyDict [("owner", PyStr Mock.lone_surrogate)]) /\
  dict_lookup "owner" [("owner", PyStr Mock.lone_surrogate)]
    = Some (PyStr Mock.lone_surrogate) /\
  stdout_encodes Mock.rt_strict ("Owner: " ++ Mock.lone_surrogate) = false /\
  printed (main Mock.world_strict)
    = ["Mint Address: " ++ Mock.hex_of_bytes Mock.mint_pda;
       "Exception: 'utf-8' codec can't encode character '\ud800' in position 7: surrogates not allowed"].
Proof.
  repeat (split; [reflexivity |]).
  exact (proj1 (unencodable_owner_reported
                  Mock.world_strict Mock.mint_pda 253
                  {| returncode := 0; stdout := Mock.json_surrogate_owner; stderr := "" |}
                  [("owner", PyStr Mock.lone_surrogate)] Mock.lone_surrogate
                  eq_refl eq_refl eq_refl eq_refl eq_refl eq_refl eq_refl)).
Defined.
